(** * VVQuest API: the HTTP boundary of the image-search engine (src/api.py)

    A shallow embedding of the FastAPI module [api.py].  The module owns two
    process-wide objects, [config] and [search_engine], and eight request
    handlers that read and mutate them.  The classes [Config]
    (config.settings) and [ImageSearch] (services.image_search) live outside
    this module: their methods are the operations of the [Core] interface
    below, and the handlers are verified for every implementation of it. *)

From Stdlib Require Import String List ZArith Bool Lia DecimalString.
Import ListNotations.

Local Open Scope Z_scope.
Local Open Scope string_scope.
Local Open Scope list_scope.

(** ** Python values and exceptions *)

(** An exception reaching a handler: FastAPI's [HTTPException(status_code,
    detail)], or any other subclass of [Exception], kept as its class name
    and the text [str(e)] gives. *)
Inductive exn : Type :=
| HTTPException (status_code : Z) (detail : string)
| PyError (cls : string) (msg : string).

Definition string_of_Z (z : Z) : string := NilZero.string_of_int (Z.to_int z).

(** [str(e)]: Starlette prints an [HTTPException] as "status: detail". *)
Definition str (e : exn) : string :=
  match e with
  | HTTPException c d => (string_of_Z c ++ ": " ++ d)%string
  | PyError _ m => m
  end.

(** The outcome of a call: a value, or a raised exception. *)
Inductive result (A : Type) : Type :=
| Ok (a : A)
| Raise (e : exn).
Arguments Ok {A} a.
Arguments Raise {A} e.

(** Truthiness of an [Optional[str]]: [None] and the empty string are falsy. *)
Definition truthy (o : option string) : bool :=
  match o with
  | Some s => negb (s =? "")%string
  | None => false
  end.

(** ** The module's global namespace (api.py, lines 1-29 and 154-156) *)

Inductive stmt : Type :=
| Import (module : string)
| FromImport (module : string) (names : list string)
| Assign (target : string)
| ClassDef (name : string)
| FunctionDef (name : string)
| ExprStmt
| Seq (s1 s2 : stmt)
| IfMain (body : stmt).

(** The top-level statements of api.py, in source order. *)
Definition api_py : list stmt :=
  [ FromImport "fastapi" ["FastAPI"; "HTTPException"; "BackgroundTasks"];
    FromImport "pydantic" ["BaseModel"];
    FromImport "typing" ["List"; "Optional"];
    Import "yaml";
    Import "os";
    FromImport "services.image_search" ["ImageSearch"];
    FromImport "config.settings" ["Config"];
    Assign "app";
    Assign "config";
    Assign "search_engine";
    ClassDef "SearchRequest";
    ClassDef "ConfigUpdate";
    ClassDef "ModelDownloadRequest";
    FunctionDef "search_images";
    FunctionDef "generate_cache";
    FunctionDef "get_config";
    FunctionDef "update_config";
    FunctionDef "download_model";
    FunctionDef "list_models";
    FunctionDef "switch_mode";
    FunctionDef "switch_model";
    IfMain (Seq (Import "uvicorn") ExprStmt) ].

(** Names a statement binds in the module namespace.  [as_main] tells whether
    the file runs as a script ([__name__ == "__main__"]). *)
Fixpoint binds (as_main : bool) (s : stmt) : list string :=
  match s with
  | Import m => [m]
  | FromImport _ names => names
  | Assign x => [x]
  | ClassDef c => [c]
  | FunctionDef f => [f]
  | ExprStmt => []
  | Seq s1 s2 => binds as_main s1 ++ binds as_main s2
  | IfMain body => if as_main then binds as_main body else []
  end.

Definition module_globals (as_main : bool) : list string :=
  flat_map (binds as_main) api_py.

(** The builtins the handlers can fall back on. *)
Definition builtins : list string :=
  [ "abs"; "all"; "any"; "bool"; "bytes"; "dict"; "float"; "int"; "isinstance";
    "len"; "list"; "map"; "max"; "min"; "object"; "open"; "print"; "range";
    "repr"; "set"; "sorted"; "str"; "sum"; "tuple"; "type"; "zip";
    "None"; "True"; "False"; "__name__"; "__import__";
    "BaseException"; "Exception"; "NameError"; "KeyError"; "ValueError";
    "TypeError"; "RuntimeError"; "OSError" ].

Definition mem (x : string) (l : list string) : bool :=
  existsb (String.eqb x) l.

(** Evaluating a name that is not a local of the function: the module
    namespace first, then the builtins, else [NameError]. *)
Definition load_global (as_main : bool) (name : string) : result unit :=
  if mem name (module_globals as_main) || mem name builtins
  then Ok tt
  else Raise (PyError "NameError" ("name '" ++ name ++ "' is not defined")%string).

(** ** Data model *)

(** An entry of [config.models.embedding_models]. *)
Record ModelInfo : Type := { performance : string }.

(** The fields of a [Config] object that api.py touches. *)
Record Config : Type := {
  api_key : option string;          (* config.api.embedding_models.api_key *)
  base_url : option string;         (* config.api.embedding_models.base_url *)
  default_model : string;           (* config.models.default_model *)
  embedding_models : list (string * ModelInfo)  (* config.models.embedding_models *)
}.

(** The attributes of the [ImageSearch] object that api.py touches. *)
Record ImageSearch : Type := {
  mode : string;                    (* search_engine.mode *)
  model_name : string;              (* search_engine.model_name *)
  device : string                   (* search_engine.embedding_service.device *)
}.

(** [class ConfigUpdate(BaseModel)]: both fields default to [None]. *)
Record ConfigUpdate : Type := {
  upd_api_key : option string;
  upd_base_url : option string
}.

(** [class SearchRequest(BaseModel)]. *)
Record SearchRequest : Type := {
  query : string;
  n_results : Z
}.


(** [model_id in d] for the dict [d = embedding_models]. *)
Definition has_key (k : string) (d : list (string * ModelInfo)) : bool :=
  mem k (map fst d).

(** ** The collaborators: config.settings and services.image_search *)

(** The process state the handlers work on: the two module-level objects and
    whatever lies behind them (files on disk, loaded weights, the cache). *)
Record World (X : Type) : Type := {
  search_engine : ImageSearch;
  config : Config;
  env : X
}.
Arguments search_engine {X} w.
Arguments config {X} w.
Arguments env {X} w.

(** The methods api.py calls on [Config], [ImageSearch], its
    [embedding_service] and [torch].  Each may raise; the predicates
    [has_cache] and [is_model_downloaded] and the constructor [Config()] read
    the state, the others may change it.  [X] is the hidden state and [R] the
    type of a search's results.  [ImageSearch_generate_cache] and
    [ImageSearch_download_model] are [search_engine.generate_cache] and
    [search_engine.download_model], told apart from the handlers that carry
    the same names. *)
Class Core (X R : Type) : Type := {
  Config_new : X -> result Config;
  Config_save : Config -> X -> result unit * X;
  ImageSearch_new : string -> string -> X -> result ImageSearch * X;
  search : string -> Z -> option string -> World X -> result R * World X;
  has_cache : World X -> result bool;
  ImageSearch_generate_cache : World X -> result unit * World X;
  set_mode : string -> option string -> World X -> result unit * World X;
  ImageSearch_download_model : string -> World X -> result unit * World X;
  is_model_downloaded : string -> World X -> result bool;
  torch_cuda_is_available : X -> result bool;
  torch_cuda_empty_cache : X -> result unit * X
}.

(** ** The handler monad: state, exceptions, and a log of outgoing calls *)

Inductive call : Type :=
| Call_search (q : string) (n : Z) (key : option string)
| Call_has_cache
| Call_Config
| Call_save (c : Config)
| Call_is_model_downloaded (model_id : string)
| Call_download_model (model_id : string)
| Call_set_mode (m : string) (model_id : option string)
| Call_cuda_is_available
| Call_cuda_empty_cache
| Call_print_exc.

(** What [BackgroundTasks.add_task] can be given in this module. *)
Inductive task : Type :=
| Task_generate_cache.

Record HState (X : Type) : Type := {
  world : World X;
  background_tasks : list task;
  trace : list call
}.
Arguments world {X} h.
Arguments background_tasks {X} h.
Arguments trace {X} h.

Definition M (X A : Type) : Type := HState X -> result A * HState X.

Definition ret {X A} (a : A) : M X A := fun h => (Ok a, h).

Definition raise {X A} (e : exn) : M X A := fun h => (Raise e, h).

Definition bind {X A B} (m : M X A) (k : A -> M X B) : M X B :=
  fun h =>
    match m h with
    | (Ok a, h') => k a h'
    | (Raise e, h') => (Raise e, h')
    end.

Declare Scope py_scope.
Delimit Scope py_scope with py.
Notation "x <- m ;; k" := (bind m (fun x => k))
  (at level 61, m at next level, right associativity) : py_scope.
Notation "m ;; k" := (bind m (fun _ => k))
  (at level 61, right associativity) : py_scope.
Local Open Scope py_scope.

(** [try: body  except HTTPException as he: on_http he
                except Exception as e: on_other e] *)
Definition try_except {X A} (body : M X A)
    (on_http : option (exn -> M X A)) (on_other : exn -> M X A) : M X A :=
  fun h =>
    match body h with
    | (Ok a, h') => (Ok a, h')
    | (Raise (HTTPException c d), h') =>
        match on_http with
        | Some handler => handler (HTTPException c d) h'
        | None => on_other (HTTPException c d) h'
        end
    | (Raise e, h') => on_other e h'
    end.

Definition log {X} (c : call) : M X unit :=
  fun h => (Ok tt, {| world := world h;
                      background_tasks := background_tasks h;
                      trace := trace h ++ [c] |}).

Definition get_world {X} : M X (World X) := fun h => (Ok (world h), h).

Definition put_world {X} (w : World X) : M X unit :=
  fun h => (Ok tt, {| world := w;
                      background_tasks := background_tasks h;
                      trace := trace h |}).

(** A method that only reads the state. *)
Definition query_world {X A} (c : call) (f : World X -> result A) : M X A :=
  log c ;;
  w <- get_world ;;
  match f w with
  | Ok a => ret a
  | Raise e => raise e
  end.

(** A method that may change the state, also when it raises. *)
Definition update_world {X A} (c : call)
    (f : World X -> result A * World X) : M X A :=
  log c ;;
  w <- get_world ;;
  let (r, w') := f w in
  put_world w' ;;
  match r with
  | Ok a => ret a
  | Raise e => raise e
  end.

(** The same for a method that works on the hidden state only. *)
Definition on_env {X A} (f : X -> result A * X)
    (w : World X) : result A * World X :=
  let (r, x) := f (env w) in
  (r, {| search_engine := search_engine w; config := config w; env := x |}).

Definition add_task {X} (t : task) : M X unit :=
  fun h => (Ok tt, {| world := world h;
                      background_tasks := background_tasks h ++ [t];
                      trace := trace h |}).

(** ** Responses *)

(** An element of the list [list_models] returns. *)
Record ModelEntry : Type := {
  entry_id : string;
  entry_performance : string;
  entry_downloaded : bool
}.

(** The JSON bodies the handlers return. *)
Inductive body (R : Type) : Type :=
| Message (m : string)
| Results (results : R)
| ConfigView (cur_mode cur_model : string) (key url : option string)
| Models (models : list ModelEntry).
Arguments Message {R} m.
Arguments Results {R} results.
Arguments ConfigView {R} cur_mode cur_model key url.
Arguments Models {R} models.

(** The status line of a response: 200 for a returned body, the carried code
    for an [HTTPException], and the framework's 500 for anything else. *)
Definition http_status {A} (r : result A) : Z :=
  match r with
  | Ok _ => 200
  | Raise (HTTPException c _) => c
  | Raise (PyError _ _) => 500
  end.

(** ** The request handlers (api.py, lines 28-152) *)

Section Handlers.

Context {X R : Type} {core : Core X R}.

(** Whether api.py runs as a script; it decides what the namespace holds. *)
Variable as_main : bool.

Definition global (name : string) : M X unit :=
  fun h => (load_global as_main name, h).

(** [except Exception as e: raise HTTPException(status_code=500, detail=str(e))] *)
Definition as_500 {A} (e : exn) : M X A :=
  raise (HTTPException 500 (str e)).

(** POST /search *)
Definition search_images (request : SearchRequest) : M X (body R) :=
  try_except
    (w <- get_world ;;
     let key := api_key (config w) in
     results <- update_world
                  (Call_search (query request) (n_results request) key)
                  (search (query request) (n_results request) key) ;;
     ret (Results results))
    None
    as_500.

(** POST /generate-cache *)
Definition generate_cache : M X (body R) :=
  cached <- query_world Call_has_cache has_cache ;;
  if negb cached then
    add_task Task_generate_cache ;;
    ret (Message "Cache generation started")
  else
    ret (Message "Cache already exists").

(** GET /config *)
Definition get_config : M X (body R) :=
  w <- get_world ;;
  ret (ConfigView (mode (search_engine w)) (model_name (search_engine w))
                  (api_key (config w)) (base_url (config w))).

Definition set_api_key (v : option string) : M X unit :=
  w <- get_world ;;
  put_world {| search_engine := search_engine w;
               config := {| api_key := v;
                            base_url := base_url (config w);
                            default_model := default_model (config w);
                            embedding_models := embedding_models (config w) |};
               env := env w |}.

Definition set_base_url (v : option string) : M X unit :=
  w <- get_world ;;
  put_world {| search_engine := search_engine w;
               config := {| api_key := api_key (config w);
                            base_url := v;
                            default_model := default_model (config w);
                            embedding_models := embedding_models (config w) |};
               env := env w |}.

(** [config.save()] *)
Definition save : M X unit :=
  w <- get_world ;;
  update_world (Call_save (config w)) (on_env (Config_save (config w))).

(** PUT /config *)
Definition update_config (update : ConfigUpdate) : M X (body R) :=
  try_except
    ((if truthy (upd_api_key update)
      then set_api_key (upd_api_key update) else ret tt) ;;
     (if truthy (upd_base_url update)
      then set_base_url (upd_base_url update) else ret tt) ;;
     save ;;
     ret (Message "Config updated successfully"))
    None
    as_500.

(** POST /download-model *)
Definition download_model (model_id : string) : M X (body R) :=
  try_except
    (present <- query_world (Call_is_model_downloaded model_id)
                            (is_model_downloaded model_id) ;;
     if present then
       ret (Message "Model already exists")
     else
       update_world (Call_download_model model_id)
                    (ImageSearch_download_model model_id) ;;
       ret (Message "Model download completed"))
    None
    as_500.

(** [Config()] *)
Definition fresh_config : M X Config :=
  query_world Call_Config (fun w => Config_new (env w)).

(** The loop of [list_models] over [embedding_models.items()]. *)
Fixpoint collect_models (items : list (string * ModelInfo))
    (models : list ModelEntry) : M X (list ModelEntry) :=
  match items with
  | [] => ret models
  | (model_id, info) :: rest =>
      present <- query_world (Call_is_model_downloaded model_id)
                             (is_model_downloaded model_id) ;;
      collect_models rest
        (models ++ [{| entry_id := model_id;
                       entry_performance := performance info;
                       entry_downloaded := present |}])
  end.

(** GET /models *)
Definition list_models : M X (body R) :=
  cfg <- fresh_config ;;
  models <- collect_models (embedding_models cfg) [] ;;
  ret (Models models).

(** PUT /mode/{mode} *)
Definition switch_mode (new_mode : string) : M X (body R) :=
  if negb (mem new_mode ["api"; "local"]) then
    raise (HTTPException 400 "Invalid mode")
  else
    try_except
      (update_world (Call_set_mode new_mode None) (set_mode new_mode None) ;;
       ret (Message ("Switched to " ++ new_mode ++ " mode")%string))
      None
      as_500.

Definition set_device (d : string) : M X unit :=
  w <- get_world ;;
  put_world {| search_engine := {| mode := mode (search_engine w);
                                   model_name := model_name (search_engine w);
                                   device := d |};
               config := config w;
               env := env w |}.

(** The [try] block of [switch_model], lines 112-142. *)
Definition switch_model_body (model_id : string) : M X (body R) :=
  w <- get_world ;;
  (if negb (mode (search_engine w) =? "local")%string then
     raise (HTTPException 400 "必须先切换到本地模式再切换模型")
   else ret tt) ;;
  cfg <- fresh_config ;;
  (if negb (has_key model_id (embedding_models cfg)) then
     raise (HTTPException 404 ("模型 " ++ model_id ++ " 未在配置中定义")%string)
   else ret tt) ;;
  present <- query_world (Call_is_model_downloaded model_id)
                         (is_model_downloaded model_id) ;;
  (if negb present then
     raise (HTTPException 412 ("模型 " ++ model_id ++ " 尚未下载")%string)
   else ret tt) ;;
  global "torch" ;;
  available <- query_world Call_cuda_is_available
                           (fun w => torch_cuda_is_available (env w)) ;;
  let dev := if available : bool then "cuda" else "cpu" in
  set_device dev ;;
  global "torch" ;;
  global "torch" ;;
  update_world Call_cuda_empty_cache (on_env torch_cuda_empty_cache) ;;
  update_world (Call_set_mode "local" (Some model_id))
               (set_mode "local" (Some model_id)) ;;
  ret (Message ("成功切换到模型 " ++ model_id ++ " (device: " ++ dev ++ ")")%string).

(** PUT /model/{model_id} *)
Definition switch_model (model_id : string) : M X (body R) :=
  try_except
    (switch_model_body model_id)
    (Some (fun he => raise he))
    (fun e =>
       log Call_print_exc ;;
       raise (HTTPException 500 ("模型加载失败: " ++ str e)%string)).

End Handlers.

(** The configuration lines 63-66 of [update_config] leave in [config]:
    a field is overwritten when the update carries a truthy value for it. *)
Definition updated (u : ConfigUpdate) (c : Config) : Config :=
  {| api_key := if truthy (upd_api_key u) then upd_api_key u else api_key c;
     base_url := if truthy (upd_base_url u) then upd_base_url u else base_url c;
     default_model := default_model c;
     embedding_models := embedding_models c |}.

(** ** The application: routing, background tasks, start-up *)

Inductive request : Type :=
| POST_search (r : SearchRequest)
| POST_generate_cache
| GET_config
| PUT_config (u : ConfigUpdate)
| POST_download_model (model_id : string)
| GET_models
| PUT_mode (m : string)
| PUT_model (model_id : string).

(** The running process: the shared objects, the background jobs that were
    started and have not finished, and the log of calls made so far. *)
Record Server (X : Type) : Type := {
  state : World X;
  in_flight : list task;
  calls : list call
}.
Arguments state {X} s.
Arguments in_flight {X} s.
Arguments calls {X} s.

Section App.

Context {X R : Type} {core : Core X R}.
Variable as_main : bool.

Definition route (r : request) : M X (body R) :=
  match r with
  | POST_search q => search_images q
  | POST_generate_cache => generate_cache
  | GET_config => get_config
  | PUT_config u => update_config u
  | POST_download_model model_id => download_model model_id
  | GET_models => list_models
  | PUT_mode m => switch_mode m
  | PUT_model model_id => switch_model as_main model_id
  end.

(** One request: the handler runs with a fresh [BackgroundTasks]; the tasks
    it added start once a response body has been produced. *)
Definition serve (r : request) (s : Server X) : result (body R) * Server X :=
  let (out, h) := route r {| world := state s;
                             background_tasks := [];
                             trace := calls s |} in
  (out, {| state := world h;
           in_flight := in_flight s ++ match out with
                                       | Ok _ => background_tasks h
                                       | Raise _ => []
                                       end;
           calls := trace h |}).

(** The oldest background job runs to its end. *)
Definition finish_job (s : Server X) : Server X :=
  match in_flight s with
  | [] => s
  | Task_generate_cache :: rest =>
      {| state := snd (ImageSearch_generate_cache (state s));
         in_flight := rest;
         calls := calls s |}
  end.

(** Serving a sequence of requests, collecting the responses. *)
Fixpoint serve_all (rs : list request) (s : Server X)
    : list (result (body R)) * Server X :=
  match rs with
  | [] => ([], s)
  | r :: rest =>
      let (out, s1) := serve r s in
      let (outs, s2) := serve_all rest s1 in
      (out :: outs, s2)
  end.

(** Lines 12-13: [config = Config()] and
    [search_engine = ImageSearch(mode='api', model_name=config.models.default_model)]. *)
Definition startup (x : X) : result (Server X) :=
  match Config_new x with
  | Raise e => Raise e
  | Ok cfg =>
      match ImageSearch_new "api" (default_model cfg) x with
      | (Raise e, _) => Raise e
      | (Ok engine, x') =>
          Ok {| state := {| search_engine := engine; config := cfg; env := x' |};
                in_flight := [];
                calls := [] |}
      end
  end.

End App.

(** ** What the specification says of the collaborators *)

(** Modelled from the spec: the bodies of [ImageSearch.__init__] and
    [ImageSearch.download_model] are not part of api.py.  The spec has Mode
    "created at SearchEngine initialization", so the constructor keeps the
    mode and model it is given; and a download that returns has stored and
    verified the weights, so the model then counts as downloaded. *)
Class CoreSpec {X R : Type} (core : Core X R) : Prop := {
  init_keeps_arguments :
    forall m name x engine x',
      ImageSearch_new m name x = (Ok engine, x') ->
      mode engine = m /\ model_name engine = name;
  download_marks_downloaded :
    forall model_id w w',
      ImageSearch_download_model model_id w = (Ok tt, w') ->
      is_model_downloaded model_id w' = Ok true
}.

(** ** A reference implementation of the collaborators *)

Module Reference.

(** Modelled from the spec: [Config] and [ImageSearch] themselves are not in
    api.py.  This instance follows sections 4.2, 4.4 and 4.5 of the spec: a
    registry of verified weight files, a cache over a corpus, and a mode that
    is REMOTE ("api") or LOCAL ("local") with a downloaded model. *)
Record Env : Type := {
  disk : Config;              (* the persisted configuration *)
  weights : list string;      (* models whose verified weights are on disk *)
  corrupt : list string;      (* models whose download fails verification *)
  corpus : list string;       (* image identifiers *)
  cache : list string;        (* images that have a cache entry *)
  accelerator : bool
}.

Definition with_env (w : World Env) (x : Env) : World Env :=
  {| search_engine := search_engine w; config := config w; env := x |}.

Definition with_engine (w : World Env) (e : ImageSearch) : World Env :=
  {| search_engine := e; config := config w; env := env w |}.

(** Modelled from the spec: [Config()], absent from api.py, reads the
    persisted configuration (section 6). *)
Definition load (x : Env) : result Config := Ok (disk x).

(** Modelled from the spec: [Config.save], absent from api.py, persists the
    configuration (section 6). *)
Definition store (c : Config) (x : Env) : result unit * Env :=
  (Ok tt, {| disk := c; weights := weights x; corrupt := corrupt x;
             corpus := corpus x; cache := cache x;
             accelerator := accelerator x |}).

(** Modelled from the spec: [ImageSearch.__init__], absent from api.py; Mode
    is created at initialization (section 3). *)
Definition init (m name : string) (x : Env) : result ImageSearch * Env :=
  (Ok {| mode := m; model_name := name; device := "cpu" |}, x).

(** Modelled from the spec: [is_model_downloaded], absent from api.py; true
    iff the verified weight artifact is on disk (sections 3 and 4.2). *)
Definition downloaded (model_id : string) (w : World Env) : result bool :=
  Ok (mem model_id (weights (env w))).

(** Modelled from the spec: [ImageSearch.download_model], absent from
    api.py; section 4.2: ModelNotFoundError outside the catalog, a no-op when
    already downloaded, DownloadIntegrityError leaving the model not
    downloaded when verification fails. *)
Definition download (model_id : string) (w : World Env)
    : result unit * World Env :=
  if negb (has_key model_id (embedding_models (config w))) then
    (Raise (PyError "ModelNotFoundError" model_id), w)
  else if mem model_id (weights (env w)) then
    (Ok tt, w)
  else if mem model_id (corrupt (env w)) then
    (Raise (PyError "DownloadIntegrityError" model_id), w)
  else
    (Ok tt, with_env w {| disk := disk (env w);
                          weights := model_id :: weights (env w);
                          corrupt := corrupt (env w);
                          corpus := corpus (env w);
                          cache := cache (env w);
                          accelerator := accelerator (env w) |}).

(** Modelled from the spec: [has_cache], absent from api.py; true iff there
    is at least one cache entry (section 4.4). *)
Definition cached (w : World Env) : result bool :=
  Ok (match cache (env w) with [] => false | _ :: _ => true end).

(** Modelled from the spec: [ImageSearch.generate_cache], absent from
    api.py; every image of the corpus gets an entry (section 4.4). *)
Definition generate (w : World Env) : result unit * World Env :=
  (Ok tt, with_env w {| disk := disk (env w);
                        weights := weights (env w);
                        corrupt := corrupt (env w);
                        corpus := corpus (env w);
                        cache := corpus (env w);
                        accelerator := accelerator (env w) |}).

(** Modelled from the spec: [ImageSearch.set_mode], absent from api.py;
    section 4.5: LOCAL requires a downloaded model and fails with
    ModelNotDownloadedError otherwise, leaving the mode unchanged. *)
Definition switch (m : string) (model_id : option string) (w : World Env)
    : result unit * World Env :=
  if (m =? "api")%string then
    (Ok tt, with_engine w {| mode := "api";
                             model_name := model_name (search_engine w);
                             device := device (search_engine w) |})
  else if (m =? "local")%string then
    let target := match model_id with
                  | Some id => id
                  | None => model_name (search_engine w)
                  end in
    if mem target (weights (env w)) then
      (Ok tt, with_engine w {| mode := "local";
                               model_name := target;
                               device := device (search_engine w) |})
    else
      (Raise (PyError "ModelNotDownloadedError" target), w)
  else
    (Raise (PyError "InvalidModeError" m), w).

(** Modelled from the spec: [ImageSearch.search], absent from api.py;
    ProviderError on malformed input or missing remote credentials
    (section 4.1), else the first [k] cached images. *)
Definition find (q : string) (k : Z) (key : option string) (w : World Env)
    : result (list string) * World Env :=
  if (q =? "")%string then
    (Raise (PyError "ProviderError" "malformed input"), w)
  else if (mode (search_engine w) =? "api")%string && negb (truthy key) then
    (Raise (PyError "ProviderError" "missing credentials"), w)
  else
    (Ok (firstn (Z.to_nat k) (cache (env w))), w).

(** Modelled from the spec: the collaborators of api.py, assembled. *)
#[global] Instance core : Core Env (list string) := {
  Config_new := load;
  Config_save := store;
  ImageSearch_new := init;
  search := find;
  has_cache := cached;
  ImageSearch_generate_cache := generate;
  set_mode := switch;
  ImageSearch_download_model := download;
  is_model_downloaded := downloaded;
  torch_cuda_is_available := fun x => Ok (accelerator x);
  torch_cuda_empty_cache := fun x => (Ok tt, x)
}.

(** A small installation: three catalogued models, one of them downloaded
    and one whose artifact is damaged; two images, nothing cached yet. *)
Definition catalog : list (string * ModelInfo) :=
  [ ("bge-small", {| performance := "fast" |});
    ("bge-base", {| performance := "balanced" |});
    ("bge-large", {| performance := "accurate" |}) ].

Definition env0 : Env :=
  {| disk := {| api_key := Some "sk-live";
                base_url := Some "https://api.example.com/v1";
                default_model := "bge-small";
                embedding_models := catalog |};
     weights := ["bge-small"];
     corrupt := ["bge-large"];
     corpus := ["cat.png"; "dog.png"];
     cache := [];
     accelerator := false |}.

(** The server right after start-up on [env0]. *)
Definition server0 : Server Env :=
  {| state := {| search_engine := {| mode := "api";
                                     model_name := "bge-small";
                                     device := "cpu" |};
                 config := disk env0;
                 env := env0 |};
     in_flight := [];
     calls := [] |}.

(** The same installation after PUT /mode/local. *)
Definition server_local : Server Env :=
  {| state := {| search_engine := {| mode := "local";
                                     model_name := "bge-small";
                                     device := "cpu" |};
                 config := disk env0;
                 env := env0 |};
     in_flight := [];
     calls := [Call_set_mode "local" None] |}.

(** [server0] after one POST /generate-cache: the job has been started. *)
Definition server_generating : Server Env :=
  snd (serve false POST_generate_cache server0).

(** ... and after that job has run to its end. *)
Definition server_cached : Server Env := finish_job server_generating.

End Reference.

(** ** A failing implementation of the collaborators *)

Module Faulty.

(** Modelled from the spec: the collaborators are absent from api.py.  This
    instance is the failing counterpart of [Reference]: the engine raises the
    errors section 7 lets it raise (ProviderError, EngineBusyError) and the
    storage behind it can fail (an unreadable configuration file, a missing
    cache directory, weight files that cannot be inspected, a full disk). *)
Record Env : Type := {
  config_file : option Config;   (* None: the file cannot be read *)
  cache_dir : option bool;       (* None: the directory is gone *)
  unreadable : list string;      (* models whose weights cannot be inspected *)
  writable : bool                (* whether the disk takes writes *)
}.

Definition load (x : Env) : result Config :=
  match config_file x with
  | Some c => Ok c
  | None => Raise (PyError "FileNotFoundError" "config.yaml")
  end.

Definition store (c : Config) (x : Env) : result unit * Env :=
  if writable x then
    (Ok tt, {| config_file := Some c; cache_dir := cache_dir x;
               unreadable := unreadable x; writable := writable x |})
  else
    (Raise (PyError "OSError" "No space left on device"), x).

Definition init (m name : string) (x : Env) : result ImageSearch * Env :=
  (Ok {| mode := m; model_name := name; device := "cpu" |}, x).

Definition cached (w : World Env) : result bool :=
  match cache_dir (env w) with
  | Some b => Ok b
  | None => Raise (PyError "OSError" "cache directory unavailable")
  end.

Definition downloaded (model_id : string) (w : World Env) : result bool :=
  if mem model_id (unreadable (env w)) then
    Raise (PyError "PermissionError" model_id)
  else
    Ok false.

#[global] Instance core : Core Env (list string) := {
  Config_new := load;
  Config_save := store;
  ImageSearch_new := init;
  search := fun _ _ _ w => (Raise (PyError "ProviderError" "offline"), w);
  has_cache := cached;
  ImageSearch_generate_cache :=
    fun w => (Raise (PyError "OSError" "No space left on device"), w);
  set_mode := fun _ _ w => (Raise (PyError "EngineBusyError" "switching"), w);
  ImageSearch_download_model :=
    fun _ w => (Raise (PyError "OSError" "No space left on device"), w);
  is_model_downloaded := downloaded;
  torch_cuda_is_available := fun _ => Ok false;
  torch_cuda_empty_cache := fun x => (Ok tt, x)
}.

(** An installation whose disk is full and whose cache directory is gone;
    the weights of "bge-base" cannot be inspected. *)
Definition env0 : Env :=
  {| config_file := Some (Reference.disk Reference.env0);
     cache_dir := None;
     unreadable := ["bge-base"];
     writable := false |}.

Definition server0 : Server Env :=
  {| state := {| search_engine := {| mode := "api";
                                     model_name := "bge-small";
                                     device := "cpu" |};
                 config := Reference.disk Reference.env0;
                 env := env0 |};
     in_flight := [];
     calls := [] |}.

(** The same installation with the configuration file lost as well. *)
Definition server_blind : Server Env :=
  {| state := {| search_engine := search_engine (state server0);
                 config := config (state server0);
                 env := {| config_file := None; cache_dir := None;
                           unreadable := ["bge-base"]; writable := false |} |};
     in_flight := [];
     calls := [] |}.

(** [server_blind] after the engine was put in local mode. *)
Definition server_blind_local : Server Env :=
  {| state := {| search_engine := {| mode := "local";
                                     model_name := "bge-small";
                                     device := "cpu" |};
                 config := config (state server_blind);
                 env := env (state server_blind) |};
     in_flight := [];
     calls := [] |}.

End Faulty.

(** ** Frame conditions on handler computations *)

(** A computation that leaves the request's [BackgroundTasks] as it found
    them, whatever it returns or raises. *)
Definition keeps_tasks {X A : Type} (m : M X A) : Prop :=
  forall h, background_tasks (snd (m h)) = background_tasks h.

(** The entry [list_models] builds for one item of the catalog. *)
Definition lists_item {X R : Type} {core : Core X R} (w : World X)
    (item : string * ModelInfo) (entry : ModelEntry) : Prop :=
  entry_id entry = fst item /\
  entry_performance entry = performance (snd item) /\
  is_model_downloaded (fst item) w = Ok (entry_downloaded entry).

(** * Properties *)

(** ** Running the monad *)

Section Run.

Context {X : Type}.

Lemma bind_ok {A B} (m : M X A) (k : A -> M X B) h a h' :
  m h = (Ok a, h') -> bind m k h = k a h'.
Proof. intros E. unfold bind. now rewrite E. Qed.

Lemma bind_raise {A B} (m : M X A) (k : A -> M X B) h e h' :
  m h = (Raise e, h') -> bind m k h = (Raise e, h').
Proof. intros E. unfold bind. now rewrite E. Qed.

Lemma query_world_ok {A} c (f : World X -> result A) h a :
  f (world h) = Ok a ->
  query_world c f h =
    (Ok a, {| world := world h; background_tasks := background_tasks h;
              trace := trace h ++ [c] |}).
Proof. intros E. unfold query_world, bind, log, get_world, ret. cbn. now rewrite E. Qed.

Lemma query_world_raise {A} c (f : World X -> result A) h e :
  f (world h) = Raise e ->
  query_world c f h =
    (Raise e, {| world := world h; background_tasks := background_tasks h;
                 trace := trace h ++ [c] |}).
Proof. intros E. unfold query_world, bind, log, get_world, raise. cbn. now rewrite E. Qed.

Lemma update_world_run {A} c (f : World X -> result A * World X) h :
  update_world c f h =
    (fst (f (world h)),
     {| world := snd (f (world h)); background_tasks := background_tasks h;
        trace := trace h ++ [c] |}).
Proof.
  unfold update_world, bind, log, get_world, put_world, ret, raise. cbn.
  destruct (f (world h)) as [[a|e] w']; reflexivity.
Qed.

Lemma hstate_eta (h : HState X) :
  {| world := world h; background_tasks := background_tasks h;
     trace := trace h |} = h.
Proof. now destruct h. Qed.

Lemma server_eta (s : Server X) :
  {| state := state s; in_flight := in_flight s; calls := calls s |} = s.
Proof. now destruct s. Qed.

End Run.

(** ** PUT /model/{model_id} *)

Ltac run_handler :=
  unfold switch_model, try_except, switch_model_body, fresh_config,
    query_world, update_world, set_device, global, bind, get_world,
    put_world, log, ret, raise; cbn.

Section SwitchModel.

Context {X R : Type} {core : Core X R}.
Variable as_main : bool.

Lemma torch_is_unbound :
  load_global as_main "torch" =
    Raise (PyError "NameError" "name 'torch' is not defined").
Proof. destruct as_main; reflexivity. Qed.

Lemma serve_route r (s : Server X) out h :
  route as_main r {| world := state s; background_tasks := [];
                     trace := calls s |} = (out, h) ->
  serve as_main r s =
    (out, {| state := world h;
             in_flight := in_flight s ++ match out with
                                         | Ok _ => background_tasks h
                                         | Raise _ => []
                                         end;
             calls := trace h |}).
Proof. intros E. unfold serve. now rewrite E. Qed.

Lemma switch_model_wrong_mode model_id (h : HState X) :
  mode (search_engine (world h)) <> "local" ->
  switch_model as_main model_id h =
    (Raise (HTTPException 400 "必须先切换到本地模式再切换模型"), h).
Proof.
  intros Hm. apply String.eqb_neq in Hm.
  run_handler. rewrite Hm. cbn. reflexivity.
Qed.

Lemma switch_model_unknown_model model_id (h : HState X) cfg :
  mode (search_engine (world h)) = "local" ->
  Config_new (env (world h)) = Ok cfg ->
  has_key model_id (embedding_models cfg) = false ->
  switch_model as_main model_id h =
    (Raise (HTTPException 404 ("模型 " ++ model_id ++ " 未在配置中定义")%string),
     {| world := world h; background_tasks := background_tasks h;
        trace := trace h ++ [Call_Config] |}).
Proof.
  intros Hm Hc Hk. run_handler.
  rewrite Hm. cbn. rewrite Hc. cbn. rewrite Hk. cbn. reflexivity.
Qed.

Lemma switch_model_missing_weights model_id (h : HState X) cfg :
  mode (search_engine (world h)) = "local" ->
  Config_new (env (world h)) = Ok cfg ->
  has_key model_id (embedding_models cfg) = true ->
  is_model_downloaded model_id (world h) = Ok false ->
  switch_model as_main model_id h =
    (Raise (HTTPException 412 ("模型 " ++ model_id ++ " 尚未下载")%string),
     {| world := world h; background_tasks := background_tasks h;
        trace := (trace h ++ [Call_Config]) ++ [Call_is_model_downloaded model_id] |}).
Proof.
  intros Hm Hc Hk Hd. run_handler.
  rewrite Hm. cbn. rewrite Hc. cbn. rewrite Hk. cbn. rewrite Hd. cbn. reflexivity.
Qed.

Lemma switch_model_torch model_id (h : HState X) cfg :
  mode (search_engine (world h)) = "local" ->
  Config_new (env (world h)) = Ok cfg ->
  has_key model_id (embedding_models cfg) = true ->
  is_model_downloaded model_id (world h) = Ok true ->
  switch_model as_main model_id h =
    (Raise (HTTPException 500 "模型加载失败: name 'torch' is not defined"),
     {| world := world h; background_tasks := background_tasks h;
        trace := ((trace h ++ [Call_Config]) ++ [Call_is_model_downloaded model_id]) ++ [Call_print_exc] |}).
Proof.
  intros Hm Hc Hk Hd. run_handler.
  rewrite Hm. cbn. rewrite Hc. cbn. rewrite Hk. cbn. rewrite Hd. cbn.
  rewrite torch_is_unbound. cbn. reflexivity.
Qed.

Lemma switch_model_never_returns model_id (h : HState X) :
  exists e h', switch_model as_main model_id h = (Raise e, h').
Proof.
  destruct (String.eqb_spec (mode (search_engine (world h))) "local") as [Hm|Hm].
  2:{ rewrite (switch_model_wrong_mode _ _ Hm). eauto. }
  destruct (Config_new (env (world h))) as [cfg|e] eqn:Hc.
  2:{ run_handler. rewrite Hm. cbn. rewrite Hc. cbn. destruct e; cbn; eauto. }
  destruct (has_key model_id (embedding_models cfg)) eqn:Hk.
  2:{ rewrite (switch_model_unknown_model _ _ _ Hm Hc Hk). eauto. }
  destruct (is_model_downloaded model_id (world h)) as [[|]|e] eqn:Hd.
  - rewrite (switch_model_torch _ _ _ Hm Hc Hk Hd). eauto.
  - rewrite (switch_model_missing_weights _ _ _ Hm Hc Hk Hd). eauto.
  - run_handler. rewrite Hm. cbn. rewrite Hc. cbn. rewrite Hk. cbn. rewrite Hd. cbn.
    destruct e; cbn; eauto.
Qed.

(** C6: a PUT /model/{model_id} request made while the engine is in the
    remote ('api') mode fails with HTTP 400 before the catalog, the weights
    or the engine are consulted: the response is the mode error and the whole
    server state, the log of outgoing calls included, is what it was. *)
Theorem switch_model_in_api_mode_is_400 :
  forall model_id (s : Server X),
    mode (search_engine (state s)) = "api" ->
    serve as_main (PUT_model model_id) s =
      (Raise (HTTPException 400 "必须先切换到本地模式再切换模型"), s).
Proof.
  intros model_id s Hm.
  erewrite serve_route.
  2:{ cbn [route]. apply switch_model_wrong_mode. cbn [world]. rewrite Hm. discriminate. }
  cbn. rewrite app_nil_r. now rewrite server_eta.
Qed.

(** C1: in local mode, for a model of the catalog whose weights are not
    downloaded, PUT /model/{model_id} fails with HTTP 412; the shared state is
    untouched (only the two read-only checks were made), so GET /config
    reports the same mode and model as before. *)
Theorem switch_model_not_downloaded_is_412 :
  forall model_id (s : Server X) cfg,
    mode (search_engine (state s)) = "local" ->
    Config_new (env (state s)) = Ok cfg ->
    has_key model_id (embedding_models cfg) = true ->
    is_model_downloaded model_id (state s) = Ok false ->
    exists s',
      serve as_main (PUT_model model_id) s =
        (Raise (HTTPException 412 ("模型 " ++ model_id ++ " 尚未下载")%string), s') /\
      state s' = state s /\
      in_flight s' = in_flight s /\
      calls s' = calls s ++ [Call_Config; Call_is_model_downloaded model_id] /\
      fst (serve as_main GET_config s') = fst (serve as_main GET_config s).
Proof.
  intros model_id s cfg Hm Hc Hk Hd.
  eexists. split.
  - erewrite serve_route.
    2:{ cbn [route]. eapply switch_model_missing_weights; cbn [world]; eassumption. }
    reflexivity.
  - cbn. rewrite app_nil_r, <- app_assoc. repeat split; reflexivity.
Qed.

(** C7, amended: while the engine is in local mode, PUT /model/{model_id}
    for a model that is not a key of the catalog fails with HTTP 404, which
    differs from the 412 of a model that is not downloaded; nothing but the
    catalog was read. *)
Theorem switch_model_unknown_model_is_404 :
  forall model_id (s : Server X) cfg,
    mode (search_engine (state s)) = "local" ->
    Config_new (env (state s)) = Ok cfg ->
    has_key model_id (embedding_models cfg) = false ->
    serve as_main (PUT_model model_id) s =
      (Raise (HTTPException 404 ("模型 " ++ model_id ++ " 未在配置中定义")%string),
       {| state := state s; in_flight := in_flight s;
          calls := calls s ++ [Call_Config] |}) /\
    http_status (fst (serve as_main (PUT_model model_id) s)) <> 412.
Proof.
  intros model_id s cfg Hm Hc Hk.
  assert (E : serve as_main (PUT_model model_id) s =
      (Raise (HTTPException 404 ("模型 " ++ model_id ++ " 未在配置中定义")%string),
       {| state := state s; in_flight := in_flight s;
          calls := calls s ++ [Call_Config] |})).
  { erewrite serve_route.
    2:{ cbn [route]. eapply switch_model_unknown_model; cbn [world]; eassumption. }
    cbn. now rewrite app_nil_r. }
  split; [exact E|]. rewrite E. cbn. discriminate.
Qed.

(** C2: when every check of PUT /model/{model_id} passes (local mode, model
    in the catalog, weights downloaded) the handler evaluates the name
    [torch], which api.py never binds; the NameError is caught by the last
    clause and answered with HTTP 500, before the device is set or set_mode
    is called.  Whatever the state, the request never returns a body. *)
Theorem switch_model_stops_at_torch :
  forall model_id (s : Server X),
    (forall cfg,
        mode (search_engine (state s)) = "local" ->
        Config_new (env (state s)) = Ok cfg ->
        has_key model_id (embedding_models cfg) = true ->
        is_model_downloaded model_id (state s) = Ok true ->
        serve as_main (PUT_model model_id) s =
          (Raise (HTTPException 500 "模型加载失败: name 'torch' is not defined"),
           {| state := state s; in_flight := in_flight s;
              calls := calls s ++ [Call_Config;
                                   Call_is_model_downloaded model_id;
                                   Call_print_exc] |})) /\
    (forall b s', serve as_main (PUT_model model_id) s <> (Ok b, s')).
Proof.
  intros model_id s. split.
  - intros cfg Hm Hc Hk Hd.
    erewrite serve_route.
    2:{ cbn [route]. eapply switch_model_torch; cbn [world]; eassumption. }
    cbn. now rewrite app_nil_r, <- !app_assoc.
  - intros b s' E.
    destruct (switch_model_never_returns model_id
                {| world := state s; background_tasks := [];
                   trace := calls s |}) as (e & h' & Hr).
    erewrite serve_route in E by (cbn [route]; exact Hr).
    discriminate.
Qed.

End SwitchModel.

(** ** POST /generate-cache *)

Ltac run_simple :=
  unfold search_images, generate_cache, update_config, download_model, save,
    set_api_key, set_base_url, as_500, try_except, query_world, update_world,
    on_env, add_task, bind, get_world, put_world, log, ret, raise; cbn.

Section GenerateCache.

Context {X R : Type} {core : Core X R}.
Variable as_main : bool.

Lemma serve_generate_cache_exists (s : Server X) :
  has_cache (state s) = Ok true ->
  serve as_main POST_generate_cache s =
    (Ok (Message "Cache already exists"),
     {| state := state s; in_flight := in_flight s;
        calls := calls s ++ [Call_has_cache] |}).
Proof.
  intros Hc. unfold serve. cbn [route]. run_simple. rewrite Hc. cbn.
  now rewrite app_nil_r.
Qed.

Lemma serve_generate_cache_missing (s : Server X) :
  has_cache (state s) = Ok false ->
  serve as_main POST_generate_cache s =
    (Ok (Message "Cache generation started"),
     {| state := state s; in_flight := in_flight s ++ [Task_generate_cache];
        calls := calls s ++ [Call_has_cache] |}).
Proof.
  intros Hc. unfold serve. cbn [route]. run_simple. rewrite Hc. cbn.
  reflexivity.
Qed.

Lemma serve_generate_cache_repeated n : forall (s : Server X),
  has_cache (state s) = Ok true ->
  serve_all as_main (repeat POST_generate_cache n) s =
    (repeat (Ok (Message "Cache already exists")) n,
     {| state := state s; in_flight := in_flight s;
        calls := calls s ++ repeat Call_has_cache n |}).
Proof.
  induction n as [|n IH]; intros s Hc.
  - cbn. now rewrite app_nil_r, server_eta.
  - cbn [repeat serve_all]. rewrite (serve_generate_cache_exists s Hc).
    rewrite IH by exact Hc. cbn. now rewrite <- app_assoc.
Qed.

(** C9: whenever has_cache() is true, POST /generate-cache answers 'Cache
    already exists', adds no background task and leaves the shared state as
    it was; hence no number of such requests regenerates an existing cache. *)
Theorem generate_cache_noop_when_cache_exists :
  forall (s : Server X),
    has_cache (state s) = Ok true ->
    serve as_main POST_generate_cache s =
      (Ok (Message "Cache already exists"),
       {| state := state s; in_flight := in_flight s;
          calls := calls s ++ [Call_has_cache] |}) /\
    forall n,
      let (outs, s') := serve_all as_main (repeat POST_generate_cache n) s in
      outs = repeat (Ok (Message "Cache already exists")) n /\
      state s' = state s /\
      in_flight s' = in_flight s.
Proof.
  intros s Hc. split.
  - now apply serve_generate_cache_exists.
  - intros n. rewrite (serve_generate_cache_repeated n s Hc). cbn. auto.
Qed.

(** C3, amended: while a cache generation is still in flight, a further
    POST /generate-cache is answered by what has_cache() says alone: if it
    says false the request starts one more generation next to the running
    one and answers 'Cache generation started'; only if it says true is the
    request turned down, with 'Cache already exists'. *)
Theorem generate_cache_while_running :
  forall (s : Server X),
    In Task_generate_cache (in_flight s) ->
    (has_cache (state s) = Ok false ->
     serve as_main POST_generate_cache s =
       (Ok (Message "Cache generation started"),
        {| state := state s;
           in_flight := in_flight s ++ [Task_generate_cache];
           calls := calls s ++ [Call_has_cache] |})) /\
    (has_cache (state s) = Ok true ->
     serve as_main POST_generate_cache s =
       (Ok (Message "Cache already exists"),
        {| state := state s; in_flight := in_flight s;
           calls := calls s ++ [Call_has_cache] |})).
Proof.
  intros s _. split; intros Hc.
  - now apply serve_generate_cache_missing.
  - now apply serve_generate_cache_exists.
Qed.

End GenerateCache.

(** ** PUT /config *)

Section UpdateConfig.

Context {X R : Type} {core : Core X R}.
Variable as_main : bool.

Lemma config_eta (c : Config) :
  {| api_key := api_key c; base_url := base_url c;
     default_model := default_model c;
     embedding_models := embedding_models c |} = c.
Proof. now destruct c. Qed.

Lemma serve_update_config u (s : Server X) :
  let c := updated u (config (state s)) in
  let saved := Config_save c (env (state s)) in
  serve as_main (PUT_config u) s =
    (match fst saved with
     | Ok _ => Ok (Message "Config updated successfully")
     | Raise e => Raise (HTTPException 500 (str e))
     end,
     {| state := {| search_engine := search_engine (state s);
                    config := c;
                    env := snd saved |};
        in_flight := in_flight s;
        calls := calls s ++ [Call_save c] |}).
Proof.
  unfold updated, serve. cbn [route]. run_simple.
  destruct (truthy (upd_api_key u)), (truthy (upd_base_url u)); cbn;
    rewrite ?config_eta;
    match goal with
    | |- context [Config_save ?c ?x] =>
        destruct (Config_save c x) as [[[]|[]] x']
    end; cbn; rewrite ?app_nil_r; reflexivity.
Qed.

Lemma truthy_false_iff o : truthy o = false <-> o = None \/ o = Some "".
Proof.
  destruct o as [v|]; cbn.
  - rewrite negb_false_iff, String.eqb_eq. split.
    + intros ->. now right.
    + intros [E|E]; congruence.
  - split; auto.
Qed.

Lemma truthy_some v : v <> "" -> truthy (Some v) = true.
Proof. intros H. cbn. now apply negb_true_iff, String.eqb_neq. Qed.

(** C10: PUT /config overwrites a stored field only with a value that is
    given and non-empty: api_key omitted, None or empty leaves the stored
    api_key as it was, and so for base_url; a credential that is set stays
    set; and config.save() is called once on every request, erroring or not,
    changed or not, the answer being a success exactly when save returned.
    Nothing else is mutated: the default model and the catalog of the
    configuration, the engine and the running jobs are as before, and the
    hidden state is the one this single save of the new configuration
    left; a raising save is answered with HTTP 500 and str(e). *)
Theorem update_config_writes_truthy_fields_only :
  forall u (s : Server X),
    let out := fst (serve as_main (PUT_config u) s) in
    let s' := snd (serve as_main (PUT_config u) s) in
    let old := config (state s) in
    let new := config (state s') in
    (upd_api_key u = None \/ upd_api_key u = Some "" ->
     api_key new = api_key old) /\
    (upd_base_url u = None \/ upd_base_url u = Some "" ->
     base_url new = base_url old) /\
    (forall v, upd_api_key u = Some v -> v <> "" -> api_key new = Some v) /\
    (forall v, upd_base_url u = Some v -> v <> "" -> base_url new = Some v) /\
    (truthy (api_key old) = true -> truthy (api_key new) = true) /\
    (truthy (base_url old) = true -> truthy (base_url new) = true) /\
    calls s' = calls s ++ [Call_save new] /\
    (out = Ok (Message "Config updated successfully") <->
     exists r, fst (Config_save new (env (state s))) = Ok r) /\
    default_model new = default_model old /\
    embedding_models new = embedding_models old /\
    search_engine (state s') = search_engine (state s) /\
    in_flight s' = in_flight s /\
    env (state s') = snd (Config_save new (env (state s))) /\
    (forall e,
        fst (Config_save new (env (state s))) = Raise e ->
        out = Raise (HTTPException 500 (str e))).
Proof.
  intros u s. cbv zeta. rewrite serve_update_config. cbn.
  repeat split.
  - intros H. apply truthy_false_iff in H. now rewrite H.
  - intros H. apply truthy_false_iff in H. now rewrite H.
  - intros v E Hv. rewrite E, (truthy_some v Hv). reflexivity.
  - intros v E Hv. rewrite E, (truthy_some v Hv). reflexivity.
  - intros H. destruct (truthy (upd_api_key u)) eqn:E; assumption.
  - intros H. destruct (truthy (upd_base_url u)) eqn:E; assumption.
  - destruct (fst (Config_save _ _)) as [r|e]; [eauto|discriminate].
  - intros [r E]. now rewrite E.
  - intros e E. now rewrite E.
Qed.

End UpdateConfig.

(** ** POST /search and POST /download-model *)

Section Errors.

Context {X R : Type} {core : Core X R}.
Variable as_main : bool.

Lemma serve_search q (s : Server X) :
  let found := search (query q) (n_results q) (api_key (config (state s)))
                      (state s) in
  serve as_main (POST_search q) s =
    (match fst found with
     | Ok results => Ok (Results results)
     | Raise e => Raise (HTTPException 500 (str e))
     end,
     {| state := snd found; in_flight := in_flight s;
        calls := calls s ++ [Call_search (query q) (n_results q)
                                         (api_key (config (state s)))] |}).
Proof.
  cbv zeta. unfold serve. cbn [route]. run_simple.
  destruct (search _ _ _ _) as [[r|[]] w']; cbn; rewrite ?app_nil_r; reflexivity.
Qed.

Lemma serve_download_present model_id (s : Server X) :
  is_model_downloaded model_id (state s) = Ok true ->
  serve as_main (POST_download_model model_id) s =
    (Ok (Message "Model already exists"),
     {| state := state s; in_flight := in_flight s;
        calls := calls s ++ [Call_is_model_downloaded model_id] |}).
Proof.
  intros Hd. unfold serve. cbn [route]. run_simple. rewrite Hd. cbn.
  now rewrite app_nil_r.
Qed.

Lemma serve_download_absent model_id (s : Server X) :
  is_model_downloaded model_id (state s) = Ok false ->
  let fetched := ImageSearch_download_model model_id (state s) in
  serve as_main (POST_download_model model_id) s =
    (match fst fetched with
     | Ok _ => Ok (Message "Model download completed")
     | Raise e => Raise (HTTPException 500 (str e))
     end,
     {| state := snd fetched; in_flight := in_flight s;
        calls := calls s ++ [Call_is_model_downloaded model_id;
                             Call_download_model model_id] |}).
Proof.
  intros Hd. cbv zeta. unfold serve. cbn [route]. run_simple. rewrite Hd. cbn.
  destruct (ImageSearch_download_model _ _) as [[r|[]] w']; cbn;
    rewrite ?app_nil_r, <- ?app_assoc; reflexivity.
Qed.

Lemma serve_download_check_raises model_id (s : Server X) e :
  is_model_downloaded model_id (state s) = Raise e ->
  serve as_main (POST_download_model model_id) s =
    (Raise (HTTPException 500 (str e)),
     {| state := state s; in_flight := in_flight s;
        calls := calls s ++ [Call_is_model_downloaded model_id] |}).
Proof.
  intros Hd. unfold serve. cbn [route]. run_simple. rewrite Hd. cbn.
  destruct e; cbn; rewrite ?app_nil_r; reflexivity.
Qed.

(** C5, amended: every error the core raises during POST /search or
    POST /download-model reaches the caller, never a success body; but it
    reaches the caller as HTTP 500 whatever its kind, the kind surviving only
    in the detail text [str(e)]. *)
Theorem core_errors_become_500 :
  forall (s : Server X) e,
    (forall q w',
        search (query q) (n_results q) (api_key (config (state s))) (state s)
          = (Raise e, w') ->
        fst (serve as_main (POST_search q) s)
          = Raise (HTTPException 500 (str e))) /\
    (forall model_id,
        is_model_downloaded model_id (state s) = Raise e ->
        fst (serve as_main (POST_download_model model_id) s)
          = Raise (HTTPException 500 (str e))) /\
    (forall model_id w',
        is_model_downloaded model_id (state s) = Ok false ->
        ImageSearch_download_model model_id (state s) = (Raise e, w') ->
        fst (serve as_main (POST_download_model model_id) s)
          = Raise (HTTPException 500 (str e))).
Proof.
  intros s e. repeat split.
  - intros q w' E. rewrite serve_search. cbn. now rewrite E.
  - intros model_id E. now rewrite (serve_download_check_raises _ _ _ E).
  - intros model_id w' Hd E. rewrite (serve_download_absent _ _ Hd). cbn.
    now rewrite E.
Qed.

(** C4: POST /download-model is idempotent.  Once a request for model_id
    has succeeded, is_model_downloaded(model_id) is true, and the next
    request for it succeeds with 'Model already exists' after the check
    alone: no download call is made and the shared state stays as it is. *)
Theorem download_model_twice :
  forall {spec : CoreSpec core} model_id (s s1 : Server X) b,
    serve as_main (POST_download_model model_id) s = (Ok b, s1) ->
    is_model_downloaded model_id (state s1) = Ok true /\
    serve as_main (POST_download_model model_id) s1 =
      (Ok (Message "Model already exists"),
       {| state := state s1; in_flight := in_flight s1;
          calls := calls s1 ++ [Call_is_model_downloaded model_id] |}).
Proof.
  intros spec model_id s s1 b E.
  assert (Hd : is_model_downloaded model_id (state s1) = Ok true).
  { destruct (is_model_downloaded model_id (state s)) as [[|]|e] eqn:Hq.
    - rewrite (serve_download_present _ _ Hq) in E.
      injection E as _ <-. exact Hq.
    - rewrite (serve_download_absent _ _ Hq) in E. cbn in E.
      destruct (ImageSearch_download_model model_id (state s))
        as [[[]|e] w'] eqn:Hf; cbn in E; [|discriminate].
      injection E as _ <-. cbn.
      exact (download_marks_downloaded _ _ _ Hf).
    - rewrite (serve_download_check_raises _ _ _ Hq) in E. discriminate. }
  split; [exact Hd|]. now apply serve_download_present.
Qed.

(** C8: right after start-up, before any request, the engine is in the
    remote mode: its mode attribute is 'api', no set_mode call has been made,
    and GET /config reports mode 'api' with the configured default model. *)
Theorem startup_mode_is_api :
  forall {spec : CoreSpec core} x (s : Server X),
    startup x = Ok s ->
    mode (search_engine (state s)) = "api" /\
    calls s = [] /\
    fst (serve as_main GET_config s) =
      Ok (ConfigView "api" (default_model (config (state s)))
                     (api_key (config (state s)))
                     (base_url (config (state s)))).
Proof.
  intros spec x s E. unfold startup in E.
  destruct (Config_new x) as [cfg|e]; [|discriminate].
  destruct (ImageSearch_new "api" (default_model cfg) x)
    as [[engine|e] x'] eqn:Hi; [|discriminate].
  injection E as <-.
  destruct (init_keeps_arguments _ _ _ _ _ Hi) as [Hm Hn].
  cbn. rewrite Hm, Hn. auto.
Qed.

End Errors.

(** ** The reference installation *)

Lemma reference_spec : CoreSpec Reference.core.
Proof.
  split.
  - intros m name x engine x' E. cbn in E. unfold Reference.init in E.
    injection E as <- _. cbn. auto.
  - intros model_id w w' E. cbn in E |- *.
    unfold Reference.download in E. unfold Reference.downloaded.
    destruct (negb (has_key model_id (embedding_models (config w))));
      [discriminate|].
    destruct (mem model_id (Reference.weights (env w))) eqn:Hw.
    + injection E as <-. now rewrite Hw.
    + destruct (mem model_id (Reference.corrupt (env w))); [discriminate|].
      injection E as <-. cbn. now rewrite String.eqb_refl.
Qed.

Example reference_startup :
  startup Reference.env0 = Ok Reference.server0.
Proof. reflexivity. Qed.

Example reference_switch_to_local :
  serve false (PUT_mode "local") Reference.server0 =
    (Ok (Message "Switched to local mode"), Reference.server_local).
Proof. reflexivity. Qed.

Example reference_cache_built :
  has_cache (state Reference.server_cached) = Ok true /\
  in_flight Reference.server_cached = [].
Proof. split; reflexivity. Qed.

Lemma switch_model_in_api_mode_is_400_witness :
  serve false (PUT_model "bge-base") Reference.server0 =
    (Raise (HTTPException 400 "必须先切换到本地模式再切换模型"),
     Reference.server0).
Proof.
  apply (switch_model_in_api_mode_is_400 false "bge-base" Reference.server0).
  reflexivity.
Defined.

Lemma switch_model_not_downloaded_is_412_witness :
  exists s',
    serve false (PUT_model "bge-base") Reference.server_local =
      (Raise (HTTPException 412 "模型 bge-base 尚未下载"), s') /\
    state s' = state Reference.server_local /\
    in_flight s' = in_flight Reference.server_local /\
    calls s' = calls Reference.server_local ++
               [Call_Config; Call_is_model_downloaded "bge-base"] /\
    fst (serve false GET_config s') =
      fst (serve false GET_config Reference.server_local).
Proof.
  apply (switch_model_not_downloaded_is_412 false "bge-base"
           Reference.server_local (Reference.disk Reference.env0));
    reflexivity.
Defined.

(** PUT /model/ghost right after start-up: "ghost" is no key of the catalog,
    yet the answer is the 400 of the mode check, not a 404. *)
Lemma switch_model_unknown_model_in_api_mode :
  Config_new (env (state Reference.server0)) = Ok (Reference.disk Reference.env0) /\
  has_key "ghost" (embedding_models (Reference.disk Reference.env0)) = false /\
  fst (serve false (PUT_model "ghost") Reference.server0) =
    Raise (HTTPException 400 "必须先切换到本地模式再切换模型") /\
  http_status (fst (serve false (PUT_model "ghost") Reference.server0)) <> 404.
Proof. repeat split. discriminate. Qed.

Lemma switch_model_unknown_model_is_404_witness :
  serve false (PUT_model "ghost") Reference.server_local =
    (Raise (HTTPException 404 "模型 ghost 未在配置中定义"),
     {| state := state Reference.server_local;
        in_flight := in_flight Reference.server_local;
        calls := calls Reference.server_local ++ [Call_Config] |}) /\
  http_status (fst (serve false (PUT_model "ghost") Reference.server_local))
    <> 412.
Proof.
  apply (switch_model_unknown_model_is_404 false "ghost"
           Reference.server_local (Reference.disk Reference.env0));
    reflexivity.
Defined.

Lemma switch_model_stops_at_torch_witness :
  serve false (PUT_model "bge-small") Reference.server_local =
    (Raise (HTTPException 500 "模型加载失败: name 'torch' is not defined"),
     {| state := state Reference.server_local;
        in_flight := in_flight Reference.server_local;
        calls := calls Reference.server_local ++
                 [Call_Config; Call_is_model_downloaded "bge-small";
                  Call_print_exc] |}).
Proof.
  apply (proj1 (switch_model_stops_at_torch false "bge-small"
                  Reference.server_local)
           (Reference.disk Reference.env0));
    reflexivity.
Defined.

Lemma generate_cache_noop_when_cache_exists_witness :
  serve false POST_generate_cache Reference.server_cached =
    (Ok (Message "Cache already exists"),
     {| state := state Reference.server_cached;
        in_flight := in_flight Reference.server_cached;
        calls := calls Reference.server_cached ++ [Call_has_cache] |}).
Proof.
  apply (generate_cache_noop_when_cache_exists false Reference.server_cached).
  reflexivity.
Defined.

(** Two POST /generate-cache in a row on a fresh installation: the first job
    is still in flight when the second request is answered 'Cache generation
    started' and a second job is started beside it. *)
Lemma generate_cache_twice_starts_two_jobs :
  let s1 := snd (serve false POST_generate_cache Reference.server0) in
  let second := serve false POST_generate_cache s1 in
  in_flight s1 = [Task_generate_cache] /\
  fst second = Ok (Message "Cache generation started") /\
  in_flight (snd second) = [Task_generate_cache; Task_generate_cache].
Proof. repeat split. Qed.

Lemma generate_cache_while_running_witness :
  serve false POST_generate_cache Reference.server_generating =
    (Ok (Message "Cache generation started"),
     {| state := state Reference.server_generating;
        in_flight := in_flight Reference.server_generating ++
                     [Task_generate_cache];
        calls := calls Reference.server_generating ++ [Call_has_cache] |}).
Proof.
  apply (proj1 (generate_cache_while_running false
                  Reference.server_generating (or_introl eq_refl))).
  reflexivity.
Defined.

Lemma download_model_twice_witness :
  let s1 := snd (serve false (POST_download_model "bge-base")
                       Reference.server0) in
  is_model_downloaded "bge-base" (state s1) = Ok true /\
  serve false (POST_download_model "bge-base") s1 =
    (Ok (Message "Model already exists"),
     {| state := state s1; in_flight := in_flight s1;
        calls := calls s1 ++ [Call_is_model_downloaded "bge-base"] |}).
Proof.
  apply (@download_model_twice _ _ Reference.core false reference_spec
           "bge-base" Reference.server0 _
           (Message "Model download completed")).
  reflexivity.
Defined.

(** Three core errors of three kinds, one status: the unknown model, the
    damaged artifact and the malformed query all come back as HTTP 500. *)
Lemma core_error_kinds_share_status :
  fst (ImageSearch_download_model "ghost" (state Reference.server0)) =
    Raise (PyError "ModelNotFoundError" "ghost") /\
  fst (ImageSearch_download_model "bge-large" (state Reference.server0)) =
    Raise (PyError "DownloadIntegrityError" "bge-large") /\
  fst (search "" 5 (Some "sk-live") (state Reference.server0)) =
    Raise (PyError "ProviderError" "malformed input") /\
  http_status (fst (serve false (POST_download_model "ghost")
                          Reference.server0)) = 500 /\
  http_status (fst (serve false (POST_download_model "bge-large")
                          Reference.server0)) = 500 /\
  http_status (fst (serve false (POST_search {| query := ""; n_results := 5 |})
                          Reference.server0)) = 500.
Proof. repeat split. Qed.

Lemma core_errors_become_500_witness :
  fst (serve false (POST_download_model "ghost") Reference.server0) =
    Raise (HTTPException 500 "ghost").
Proof.
  apply (proj2 (proj2 (core_errors_become_500 false Reference.server0
                         (PyError "ModelNotFoundError" "ghost")))
           "ghost" (state Reference.server0));
    reflexivity.
Defined.

Lemma startup_mode_is_api_witness :
  mode (search_engine (state Reference.server0)) = "api" /\
  calls Reference.server0 = [] /\
  fst (serve false GET_config Reference.server0) =
    Ok (ConfigView "api" "bge-small" (Some "sk-live")
                   (Some "https://api.example.com/v1")).
Proof.
  apply (@startup_mode_is_api _ _ Reference.core false reference_spec
           Reference.env0 Reference.server0).
  reflexivity.
Defined.

Lemma update_config_writes_truthy_fields_only_witness :
  let u := {| upd_api_key := Some "";
              upd_base_url := Some "https://proxy.example.com/v1" |} in
  let s' := snd (serve false (PUT_config u) Reference.server0) in
  api_key (config (state s')) = Some "sk-live" /\
  base_url (config (state s')) = Some "https://proxy.example.com/v1" /\
  embedding_models (config (state s')) = Reference.catalog /\
  search_engine (state s') = search_engine (state Reference.server0).
Proof.
  cbv zeta.
  destruct (update_config_writes_truthy_fields_only false
              {| upd_api_key := Some "";
                 upd_base_url := Some "https://proxy.example.com/v1" |}
              Reference.server0)
    as (Hkey & _ & _ & Hurl & _ & _ & _ & _ & _ & Hcat & Heng & _).
  refine (conj (Hkey (or_intror eq_refl))
            (conj (Hurl _ eq_refl _) (conj Hcat Heng))).
  discriminate.
Defined.

(** ** PUT /mode/{mode} and GET /models *)

Ltac run_more :=
  unfold switch_mode, list_models, fresh_config, get_config;
  run_simple.

Section ModeAndModels.

Context {X R : Type} {core : Core X R}.
Variable as_main : bool.

Lemma serve_switch_mode_valid m (s : Server X) :
  mem m ["api"; "local"] = true ->
  serve as_main (PUT_mode m) s =
    (match fst (set_mode m None (state s)) with
     | Ok _ => Ok (Message ("Switched to " ++ m ++ " mode")%string)
     | Raise e => Raise (HTTPException 500 (str e))
     end,
     {| state := snd (set_mode m None (state s));
        in_flight := in_flight s;
        calls := calls s ++ [Call_set_mode m None] |}).
Proof.
  intros Hm. unfold serve. cbn [route]. unfold switch_mode. rewrite Hm.
  cbn [negb]. run_simple.
  destruct (set_mode m None (state s)) as [[r|[]] w']; cbn;
    rewrite ?app_nil_r; reflexivity.
Qed.

Lemma serve_switch_mode_invalid m (s : Server X) :
  mem m ["api"; "local"] = false ->
  serve as_main (PUT_mode m) s = (Raise (HTTPException 400 "Invalid mode"), s).
Proof.
  intros Hm. unfold serve. cbn [route]. unfold switch_mode. rewrite Hm.
  cbn. now rewrite app_nil_r, server_eta.
Qed.

Lemma mem_modes m : mem m ["api"; "local"] = true <-> m = "api" \/ m = "local".
Proof.
  unfold mem. cbn [existsb]. rewrite !orb_true_iff, !String.eqb_eq.
  intuition discriminate.
Qed.

(** X1: PUT /mode/{mode} with a mode other than 'api' and 'local' is turned
    down with HTTP 400 'Invalid mode' before the engine is touched: set_mode
    is not called and the server state is what it was. *)
Theorem switch_mode_rejects_unknown_mode :
  forall m (s : Server X),
    m <> "api" -> m <> "local" ->
    serve as_main (PUT_mode m) s =
      (Raise (HTTPException 400 "Invalid mode"), s).
Proof.
  intros m s Ha Hl. apply serve_switch_mode_invalid.
  destruct (mem m ["api"; "local"]) eqn:E; [|reflexivity].
  apply mem_modes in E. tauto.
Qed.

(** X2: PUT /mode/api and PUT /mode/local call set_mode exactly once, with the
    mode and no model id.  The answer is 'Switched to <mode> mode' when
    set_mode returns and HTTP 500 with str(e) when it raises; either way the
    state is the one set_mode left behind and no background job is started. *)
Theorem switch_mode_calls_set_mode_once :
  forall m (s : Server X),
    m = "api" \/ m = "local" ->
    serve as_main (PUT_mode m) s =
      (match fst (set_mode m None (state s)) with
       | Ok _ => Ok (Message ("Switched to " ++ m ++ " mode")%string)
       | Raise e => Raise (HTTPException 500 (str e))
       end,
       {| state := snd (set_mode m None (state s));
          in_flight := in_flight s;
          calls := calls s ++ [Call_set_mode m None] |}).
Proof.
  intros m s Hm. apply serve_switch_mode_valid. now apply mem_modes.
Qed.

(** The loop of [list_models] when every check returns: one entry is appended
    per item, in order, and nothing but the log changes. *)
Lemma collect_models_ok items : forall acc (h : HState X),
  (forall model_id, In model_id (map fst items) ->
     exists b, is_model_downloaded model_id (world h) = Ok b) ->
  exists entries tr,
    collect_models items acc h =
      (Ok (acc ++ entries),
       {| world := world h; background_tasks := background_tasks h;
          trace := trace h ++ tr |}) /\
    Forall2 (lists_item (world h)) items entries.
Proof.
  induction items as [|[model_id info] rest IH]; intros acc h Hall.
  - exists [], []. cbn. rewrite !app_nil_r, hstate_eta. split; constructor.
  - destruct (Hall model_id) as [b Hb]; [now left|].
    cbn [collect_models]. erewrite bind_ok by (apply query_world_ok; exact Hb).
    specialize (IH (acc ++ [{| entry_id := model_id;
                               entry_performance := performance info;
                               entry_downloaded := b |}])
                   {| world := world h;
                      background_tasks := background_tasks h;
                      trace := trace h ++ [Call_is_model_downloaded model_id] |}).
    destruct IH as (entries & tr & E & F).
    { intros id' Hin. apply Hall. now right. }
    cbn [world background_tasks trace] in E, F.
    eexists (_ :: entries), (_ :: tr). split.
    + rewrite E. now rewrite <- !app_assoc.
    + constructor; [|exact F]. repeat split. exact Hb.
Qed.

(** The loop stops at the first item whose check raises, with that very
    exception. *)
Lemma collect_models_raise before : forall model_id info after acc (h : HState X) e,
  (forall id', In id' (map fst before) ->
     exists b, is_model_downloaded id' (world h) = Ok b) ->
  is_model_downloaded model_id (world h) = Raise e ->
  exists tr,
    collect_models (before ++ (model_id, info) :: after) acc h =
      (Raise e,
       {| world := world h; background_tasks := background_tasks h;
          trace := trace h ++ tr |}).
Proof.
  induction before as [|[id0 info0] rest IH]; intros model_id info after acc h e Hall He.
  - cbn [app collect_models].
    erewrite bind_raise by (apply query_world_raise; exact He). eauto.
  - destruct (Hall id0) as [b Hb]; [now left|].
    cbn [app collect_models].
    erewrite bind_ok by (apply query_world_ok; exact Hb).
    edestruct (IH model_id info after) as (tr & E).
    3:{ rewrite E. cbn [world background_tasks trace].
        rewrite <- app_assoc. eauto. }
    + cbn [world]. intros id' Hin. apply Hall. now right.
    + exact He.
Qed.

(** X3: when Config() loads and every is_model_downloaded check returns,
    GET /models answers with one entry per item of the catalog, in catalog
    order, each carrying the item's id, its performance label and the answer
    of is_model_downloaded for it; the state and the running jobs are
    unchanged. *)
Theorem list_models_lists_the_catalog :
  forall (s : Server X) cfg,
    Config_new (env (state s)) = Ok cfg ->
    (forall model_id, In model_id (map fst (embedding_models cfg)) ->
       exists b, is_model_downloaded model_id (state s) = Ok b) ->
    exists models,
      fst (serve as_main GET_models s) = Ok (Models models) /\
      Forall2 (lists_item (state s)) (embedding_models cfg) models /\
      state (snd (serve as_main GET_models s)) = state s /\
      in_flight (snd (serve as_main GET_models s)) = in_flight s.
Proof.
  intros s cfg Hc Hall.
  destruct (collect_models_ok (embedding_models cfg) []
              {| world := state s; background_tasks := [];
                 trace := calls s ++ [Call_Config] |} Hall)
    as (entries & tr & E & F).
  exists entries. unfold serve. cbn [route]. unfold list_models, fresh_config.
  erewrite bind_ok by (apply query_world_ok; cbn [world]; exact Hc).
  cbn [world background_tasks trace].
  erewrite bind_ok by exact E. cbn.
  rewrite app_nil_r. auto.
Qed.

(** X4: GET /models has no try block, so an exception of Config() or of an
    is_model_downloaded check leaves the handler as it is, not wrapped in an
    HTTPException: the request fails at the first item whose check raises,
    with that exception. *)
Theorem list_models_lets_errors_escape :
  forall (s : Server X) e,
    (Config_new (env (state s)) = Raise e ->
     fst (serve as_main GET_models s) = Raise e) /\
    (forall cfg before model_id info after,
        Config_new (env (state s)) = Ok cfg ->
        embedding_models cfg = before ++ (model_id, info) :: after ->
        (forall id', In id' (map fst before) ->
           exists b, is_model_downloaded id' (state s) = Ok b) ->
        is_model_downloaded model_id (state s) = Raise e ->
        fst (serve as_main GET_models s) = Raise e).
Proof.
  intros s e. split.
  - intros Hc. unfold serve. cbn [route]. unfold list_models, fresh_config.
    erewrite bind_raise by (apply query_world_raise; cbn [world]; exact Hc).
    reflexivity.
  - intros cfg before model_id info after Hc Hitems Hall He.
    destruct (collect_models_raise before model_id info after []
                {| world := state s; background_tasks := [];
                   trace := calls s ++ [Call_Config] |} e Hall He)
      as (tr & E).
    unfold serve. cbn [route]. unfold list_models, fresh_config.
    erewrite bind_ok by (apply query_world_ok; cbn [world]; exact Hc).
    cbn [world background_tasks trace]. rewrite Hitems.
    erewrite bind_raise by exact E. reflexivity.
Qed.

End ModeAndModels.

(** ** Configuration, search and download across requests *)

Section AcrossRequests.

Context {X R : Type} {core : Core X R}.
Variable as_main : bool.

Lemma serve_get_config (s : Server X) :
  serve as_main GET_config s =
    (Ok (ConfigView (mode (search_engine (state s)))
                    (model_name (search_engine (state s)))
                    (api_key (config (state s)))
                    (base_url (config (state s)))), s).
Proof.
  unfold serve. cbn [route]. run_more. now rewrite app_nil_r, server_eta.
Qed.

(** X5: POST /generate-cache has no try block: when has_cache() raises, the
    exception leaves the handler as it is, no background job is started and
    the state is unchanged. *)
Theorem generate_cache_lets_errors_escape :
  forall (s : Server X) e,
    has_cache (state s) = Raise e ->
    serve as_main POST_generate_cache s =
      (Raise e,
       {| state := state s; in_flight := in_flight s;
          calls := calls s ++ [Call_has_cache] |}).
Proof.
  intros s e He. unfold serve. cbn [route]. run_simple. rewrite He. cbn.
  now rewrite app_nil_r.
Qed.

(** X6: PUT /config changes the configuration in memory before it saves and
    does not undo the change when the save fails: whatever config.save()
    does, a GET /config that follows reports the new api_key and base_url
    (the given value where it is truthy, the old one otherwise) and the same
    mode and model; in particular so after a PUT /config answered with 500. *)
Theorem get_config_after_update_config :
  forall u (s : Server X),
    let old := config (state s) in
    let s1 := snd (serve as_main (PUT_config u) s) in
    fst (serve as_main GET_config s1) =
      Ok (ConfigView
            (mode (search_engine (state s)))
            (model_name (search_engine (state s)))
            (if truthy (upd_api_key u) then upd_api_key u else api_key old)
            (if truthy (upd_base_url u) then upd_base_url u else base_url old)) /\
    (forall e x,
        Config_save (updated u old) (env (state s)) = (Raise e, x) ->
        fst (serve as_main (PUT_config u) s) =
          Raise (HTTPException 500 (str e))).
Proof.
  intros u s. cbv zeta. rewrite serve_update_config. cbn [fst snd].
  rewrite serve_get_config. cbn. split; [reflexivity|].
  intros e x E. now rewrite E.
Qed.

(** X7: two PUT /config in a row combine field by field: the later value
    wins where it is truthy, else the earlier one where that is truthy, else
    the stored value stays; hence repeating the same update changes nothing
    further. *)
Theorem update_config_twice :
  forall u1 u2 (s : Server X),
    let old := config (state s) in
    let after := fun u (t : Server X) => snd (serve as_main (PUT_config u) t) in
    let new := config (state (after u2 (after u1 s))) in
    api_key new =
      (if truthy (upd_api_key u2) then upd_api_key u2
       else if truthy (upd_api_key u1) then upd_api_key u1
       else api_key old) /\
    base_url new =
      (if truthy (upd_base_url u2) then upd_base_url u2
       else if truthy (upd_base_url u1) then upd_base_url u1
       else base_url old) /\
    config (state (after u1 (after u1 s))) = config (state (after u1 s)).
Proof.
  intros u1 u2 s. cbv beta zeta. rewrite !serve_update_config. cbn.
  repeat split. unfold updated. cbn.
  destruct (truthy (upd_api_key u1)), (truthy (upd_base_url u1)); reflexivity.
Qed.



End AcrossRequests.

(** ** Background jobs *)

Section Tasks.

Context {X : Type}.

Lemma keeps_ret {A} (a : A) : keeps_tasks (@ret X A a).
Proof. intros h. reflexivity. Qed.

Lemma keeps_raise {A} e : keeps_tasks (@raise X A e).
Proof. intros h. reflexivity. Qed.

Lemma keeps_log c : keeps_tasks (@log X c).
Proof. intros h. reflexivity. Qed.

Lemma keeps_get_world : keeps_tasks (@get_world X).
Proof. intros h. reflexivity. Qed.

Lemma keeps_put_world w : keeps_tasks (@put_world X w).
Proof. intros h. reflexivity. Qed.

Lemma keeps_bind {A B} (m : M X A) (k : A -> M X B) :
  keeps_tasks m -> (forall a, keeps_tasks (k a)) -> keeps_tasks (bind m k).
Proof.
  intros Hm Hk h. unfold bind. specialize (Hm h).
  destruct (m h) as [[a|e] h']; cbn in Hm |- *.
  - now rewrite Hk.
  - exact Hm.
Qed.

Lemma keeps_try_except {A} (body : M X A) on_http on_other :
  keeps_tasks body ->
  (forall handler e, on_http = Some handler -> keeps_tasks (handler e)) ->
  (forall e, keeps_tasks (on_other e)) ->
  keeps_tasks (try_except body on_http on_other).
Proof.
  intros Hb Hh Ho h. unfold try_except. specialize (Hb h).
  destruct (body h) as [[a|[c d|cls msg]] h']; cbn in Hb |- *.
  - exact Hb.
  - destruct on_http as [handler|].
    + now rewrite (Hh handler _ eq_refl).
    + now rewrite Ho.
  - now rewrite Ho.
Qed.

Lemma keeps_query_world {A} c (f : World X -> result A) :
  keeps_tasks (query_world c f).
Proof.
  intros h. destruct (f (world h)) as [a|e] eqn:E.
  - now rewrite (query_world_ok _ _ _ _ E).
  - now rewrite (query_world_raise _ _ _ _ E).
Qed.

Lemma keeps_update_world {A} c (f : World X -> result A * World X) :
  keeps_tasks (update_world c f).
Proof. intros h. now rewrite update_world_run. Qed.

End Tasks.

Create HintDb frame.
#[global] Hint Resolve keeps_ret keeps_raise keeps_log keeps_get_world
  keeps_put_world keeps_query_world keeps_update_world : frame.

Ltac frame :=
  repeat first
    [ apply keeps_bind; [|intros ?]
    | apply keeps_try_except; [| intros ? ? ? | intros ?]
    | match goal with
      | |- keeps_tasks (if ?b then _ else _) => destruct b
      | |- keeps_tasks (let (_, _) := ?p in _) => destruct p
      | |- keeps_tasks (match ?r with Ok _ => _ | Raise _ => _ end) => destruct r
      | H : Some _ = Some _ |- _ => injection H as <-
      | H : None = Some _ |- _ => discriminate H
      end
    | solve [auto with frame] ].

Section Jobs.

Context {X R : Type} {core : Core X R}.
Variable as_main : bool.

Lemma keeps_collect_models items : forall acc,
  keeps_tasks (collect_models items acc).
Proof.
  induction items as [|[model_id info] rest IH]; intros acc; cbn [collect_models].
  - apply keeps_ret.
  - apply keeps_bind; [apply keeps_query_world|]. intros b. apply IH.
Qed.

Lemma keeps_switch_model_body model_id :
  keeps_tasks (switch_model_body as_main model_id).
Proof.
  unfold switch_model_body, fresh_config, set_device, global. frame;
    intros h; reflexivity.
Qed.

Lemma keeps_route r :
  r <> POST_generate_cache -> keeps_tasks (route as_main r).
Proof.
  intros Hr. destruct r; cbn [route]; try congruence.
  - unfold search_images, as_500. frame.
  - unfold get_config. frame.
  - unfold update_config, set_api_key, set_base_url, save, as_500. frame.
  - unfold download_model, as_500. frame.
  - unfold list_models, fresh_config. frame. apply keeps_collect_models.
  - unfold switch_mode, as_500. frame.
  - unfold switch_model. apply keeps_try_except.
    + apply keeps_switch_model_body.
    + intros handler e E. injection E as <-. apply keeps_raise.
    + intros e. frame.
Qed.

(** X10: the only request that starts a background job is a
    POST /generate-cache that finds has_cache() false, and it starts exactly
    one: after such a request the running jobs are the earlier ones followed
    by one cache generation.  After every other request, and after a
    POST /generate-cache that finds a cache or whose check raises, the list
    of running jobs is exactly what it was; no request removes a job. *)
Theorem only_generate_cache_starts_jobs :
  forall r (s : Server X),
    in_flight (snd (serve as_main r s)) =
      in_flight s ++
        match r, has_cache (state s) with
        | POST_generate_cache, Ok false => [Task_generate_cache]
        | _, _ => []
        end.
Proof.
  intros r s.
  assert (D : r = POST_generate_cache \/ r <> POST_generate_cache).
  { destruct r; auto; right; discriminate. }
  destruct D as [->|Hr].
  - destruct (has_cache (state s)) as [[|]|e] eqn:Hc.
    + rewrite (serve_generate_cache_exists as_main s Hc). cbn.
      now rewrite app_nil_r.
    + now rewrite (serve_generate_cache_missing as_main s Hc).
    + unfold serve. cbn [route]. run_simple. rewrite Hc. cbn. reflexivity.
  - unfold serve.
    pose proof (keeps_route r Hr {| world := state s; background_tasks := [];
                                    trace := calls s |}) as K.
    destruct (route as_main r _) as [out h]. cbn in K |- *. rewrite K.
    destruct out, r; try congruence; reflexivity.
Qed.

End Jobs.

(** ** Failures of PUT /model/{model_id} and of the handlers with a try block *)

Section Failures.

Context {X R : Type} {core : Core X R}.
Variable as_main : bool.

Lemma switch_model_config_raises model_id (h : HState X) e :
  mode (search_engine (world h)) = "local" ->
  Config_new (env (world h)) = Raise e ->
  switch_model as_main model_id h =
    (match e with
     | HTTPException _ _ => Raise e
     | PyError _ msg => Raise (HTTPException 500 ("模型加载失败: " ++ msg)%string)
     end,
     {| world := world h; background_tasks := background_tasks h;
        trace := trace h ++ Call_Config ::
                 match e with
                 | HTTPException _ _ => []
                 | PyError _ _ => [Call_print_exc]
                 end |}).
Proof.
  intros Hm Hc. run_handler. rewrite Hm. cbn. rewrite Hc. cbn.
  destruct e; cbn; rewrite <- ?app_assoc; reflexivity.
Qed.

Lemma switch_model_check_raises model_id (h : HState X) cfg e :
  mode (search_engine (world h)) = "local" ->
  Config_new (env (world h)) = Ok cfg ->
  has_key model_id (embedding_models cfg) = true ->
  is_model_downloaded model_id (world h) = Raise e ->
  switch_model as_main model_id h =
    (match e with
     | HTTPException _ _ => Raise e
     | PyError _ msg => Raise (HTTPException 500 ("模型加载失败: " ++ msg)%string)
     end,
     {| world := world h; background_tasks := background_tasks h;
        trace := trace h ++ Call_Config :: Call_is_model_downloaded model_id ::
                 match e with
                 | HTTPException _ _ => []
                 | PyError _ _ => [Call_print_exc]
                 end |}).
Proof.
  intros Hm Hc Hk Hd. run_handler.
  rewrite Hm. cbn. rewrite Hc. cbn. rewrite Hk. cbn. rewrite Hd. cbn.
  destruct e; cbn; rewrite <- ?app_assoc; reflexivity.
Qed.

(** Every run of [switch_model] ends in an [HTTPException] and touches the
    log alone. *)
Lemma switch_model_outcome model_id (h : HState X) :
  exists c d tr,
    switch_model as_main model_id h =
      (Raise (HTTPException c d),
       {| world := world h; background_tasks := background_tasks h;
          trace := tr |}).
Proof.
  destruct (String.eqb_spec (mode (search_engine (world h))) "local") as [Hm|Hm].
  2:{ rewrite (switch_model_wrong_mode _ _ _ Hm).
      exists 400, "必须先切换到本地模式再切换模型", (trace h).
      now rewrite hstate_eta. }
  destruct (Config_new (env (world h))) as [cfg|e] eqn:Hc.
  2:{ rewrite (switch_model_config_raises _ _ _ Hm Hc). destruct e; eauto. }
  destruct (has_key model_id (embedding_models cfg)) eqn:Hk.
  2:{ rewrite (switch_model_unknown_model _ _ _ _ Hm Hc Hk). eauto. }
  destruct (is_model_downloaded model_id (world h)) as [[|]|e] eqn:Hd.
  - rewrite (switch_model_torch _ _ _ _ Hm Hc Hk Hd). eauto.
  - rewrite (switch_model_missing_weights _ _ _ _ Hm Hc Hk Hd). eauto.
  - rewrite (switch_model_check_raises _ _ _ _ Hm Hc Hk Hd). destruct e; eauto.
Qed.

Lemma switch_model_changes_nothing_aux model_id (s : Server X) :
  exists c d,
    fst (serve as_main (PUT_model model_id) s) = Raise (HTTPException c d).
Proof.
  destruct (switch_model_outcome model_id
              {| world := state s; background_tasks := []; trace := calls s |})
    as (c & d & tr & E).
  exists c, d. unfold serve. cbn [route]. now rewrite E.
Qed.

(** X11: PUT /model/{model_id} never changes anything: in every state and
    for every model id the request ends in an HTTPException, and the engine
    (mode, model and device), the configuration, the hidden state and the
    running jobs are what they were before. *)
Theorem switch_model_changes_nothing :
  forall model_id (s : Server X),
    exists c d,
      fst (serve as_main (PUT_model model_id) s) = Raise (HTTPException c d) /\
      state (snd (serve as_main (PUT_model model_id) s)) = state s /\
      in_flight (snd (serve as_main (PUT_model model_id) s)) = in_flight s.
Proof.
  intros model_id s.
  destruct (switch_model_outcome model_id
              {| world := state s; background_tasks := []; trace := calls s |})
    as (c & d & tr & E).
  exists c, d. unfold serve. cbn [route]. rewrite E. cbn.
  now rewrite app_nil_r.
Qed.

(** X13: in local mode, an exception of Config() or of the
    is_model_downloaded check inside PUT /model/{model_id} is handled by
    kind: an HTTPException goes to the caller unchanged, with its own status,
    and nothing is printed; any other exception is printed with
    traceback.print_exc() and answered with HTTP 500 whose detail is
    '模型加载失败: ' followed by str(e). *)
Theorem switch_model_error_clauses :
  forall model_id (s : Server X) e,
    mode (search_engine (state s)) = "local" ->
    let answer := match e with
                  | HTTPException _ _ => Raise e
                  | PyError _ msg =>
                      Raise (HTTPException 500 ("模型加载失败: " ++ msg)%string)
                  end in
    let printed := match e with
                   | HTTPException _ _ => []
                   | PyError _ _ => [Call_print_exc]
                   end in
    (Config_new (env (state s)) = Raise e ->
     serve as_main (PUT_model model_id) s =
       (answer,
        {| state := state s; in_flight := in_flight s;
           calls := calls s ++ Call_Config :: printed |})) /\
    (forall cfg,
        Config_new (env (state s)) = Ok cfg ->
        has_key model_id (embedding_models cfg) = true ->
        is_model_downloaded model_id (state s) = Raise e ->
        serve as_main (PUT_model model_id) s =
          (answer,
           {| state := state s; in_flight := in_flight s;
              calls := calls s ++ Call_Config ::
                       Call_is_model_downloaded model_id :: printed |})).
Proof.
  intros model_id s e Hm. cbv zeta. split.
  - intros Hc. erewrite serve_route.
    2:{ cbn [route]. eapply switch_model_config_raises; cbn [world]; eassumption. }
    cbn. destruct e; now rewrite app_nil_r.
  - intros cfg Hc Hk Hd. erewrite serve_route.
    2:{ cbn [route]. eapply switch_model_check_raises; cbn [world]; eassumption. }
    cbn. destruct e; now rewrite app_nil_r.
Qed.

(** X12: the handlers that have a try block never let an exception out as
    it is: if a request other than GET /models and POST /generate-cache
    fails, it fails with an HTTPException, whose status is 500 for
    POST /search, PUT /config and POST /download-model and 400 or 500 for
    PUT /mode/{mode}. *)
Theorem handlers_with_try_raise_http_only :
  forall r (s : Server X) e,
    r <> GET_models -> r <> POST_generate_cache ->
    fst (serve as_main r s) = Raise e ->
    exists c d,
      e = HTTPException c d /\
      match r with
      | POST_search _ | PUT_config _ | POST_download_model _ => c = 500
      | PUT_mode _ => c = 400 \/ c = 500
      | _ => True
      end.
Proof.
  intros r s e Hm Hg E. destruct r; try congruence.
  - rewrite serve_search in E. cbn in E.
    destruct (fst (search _ _ _ _)); inversion E; eauto.
  - rewrite serve_get_config in E. discriminate.
  - rewrite serve_update_config in E. cbn in E.
    destruct (fst (Config_save _ _)); inversion E; eauto.
  - destruct (is_model_downloaded model_id (state s)) as [[|]|e'] eqn:Hd.
    + rewrite (serve_download_present _ _ _ Hd) in E. discriminate.
    + rewrite (serve_download_absent _ _ _ Hd) in E. cbn in E.
      destruct (fst (ImageSearch_download_model _ _)); inversion E; eauto.
    + rewrite (serve_download_check_raises _ _ _ _ Hd) in E.
      inversion E; eauto.
  - destruct (mem m ["api"; "local"]) eqn:Hv.
    + rewrite (serve_switch_mode_valid _ _ _ Hv) in E. cbn in E.
      destruct (fst (set_mode _ _ _)); inversion E; eauto.
    + rewrite (serve_switch_mode_invalid _ _ _ Hv) in E. inversion E; eauto.
  - destruct (switch_model_changes_nothing_aux model_id s) as (c & d & E').
    rewrite E' in E. inversion E; eauto.
Qed.

End Failures.

(** ** The two installations on the further handlers *)

Lemma switch_mode_rejects_unknown_mode_witness :
  serve false (PUT_mode "remote") Reference.server0 =
    (Raise (HTTPException 400 "Invalid mode"), Reference.server0).
Proof.
  apply (switch_mode_rejects_unknown_mode false "remote" Reference.server0);
    discriminate.
Defined.

Lemma switch_mode_calls_set_mode_once_witness :
  serve false (PUT_mode "local") Reference.server0 =
    (Ok (Message "Switched to local mode"), Reference.server_local).
Proof.
  exact (switch_mode_calls_set_mode_once false "local" Reference.server0
           (or_intror eq_refl)).
Defined.

Lemma list_models_lists_the_catalog_witness :
  exists models,
    fst (serve false GET_models Reference.server0) = Ok (Models models) /\
    Forall2 (lists_item (state Reference.server0)) Reference.catalog models /\
    state (snd (serve false GET_models Reference.server0)) =
      state Reference.server0 /\
    in_flight (snd (serve false GET_models Reference.server0)) =
      in_flight Reference.server0.
Proof.
  apply (list_models_lists_the_catalog false Reference.server0
           (Reference.disk Reference.env0)).
  - reflexivity.
  - intros model_id _. eexists. reflexivity.
Defined.

Lemma list_models_lets_errors_escape_witness :
  fst (serve false GET_models Faulty.server_blind) =
    Raise (PyError "FileNotFoundError" "config.yaml") /\
  fst (serve false GET_models Faulty.server0) =
    Raise (PyError "PermissionError" "bge-base").
Proof.
  split.
  - apply (proj1 (list_models_lets_errors_escape false Faulty.server_blind
                    (PyError "FileNotFoundError" "config.yaml"))).
    reflexivity.
  - apply (proj2 (list_models_lets_errors_escape false Faulty.server0
                    (PyError "PermissionError" "bge-base"))
             (Reference.disk Reference.env0)
             [("bge-small", {| performance := "fast" |})]
             "bge-base" {| performance := "balanced" |}
             [("bge-large", {| performance := "accurate" |})]).
    + reflexivity.
    + reflexivity.
    + intros id' [<-|[]]. eexists. reflexivity.
    + reflexivity.
Defined.

Lemma generate_cache_lets_errors_escape_witness :
  serve false POST_generate_cache Faulty.server0 =
    (Raise (PyError "OSError" "cache directory unavailable"),
     {| state := state Faulty.server0; in_flight := [];
        calls := [Call_has_cache] |}).
Proof.
  apply (generate_cache_lets_errors_escape false Faulty.server0).
  reflexivity.
Defined.

Lemma get_config_after_update_config_witness :
  let u := {| upd_api_key := Some "sk-new"; upd_base_url := None |} in
  fst (serve false (PUT_config u) Faulty.server0) =
    Raise (HTTPException 500 "No space left on device") /\
  fst (serve false GET_config (snd (serve false (PUT_config u) Faulty.server0))) =
    Ok (ConfigView "api" "bge-small" (Some "sk-new")
                   (Some "https://api.example.com/v1")).
Proof.
  cbv zeta.
  destruct (get_config_after_update_config false
              {| upd_api_key := Some "sk-new"; upd_base_url := None |}
              Faulty.server0) as [Hget Hput].
  split.
  - apply (Hput (PyError "OSError" "No space left on device")
                (env (state Faulty.server0))).
    reflexivity.
  - exact Hget.
Defined.



Lemma switch_model_error_clauses_witness :
  serve false (PUT_model "bge-small") Faulty.server_blind_local =
    (Raise (HTTPException 500 "模型加载失败: config.yaml"),
     {| state := state Faulty.server_blind_local; in_flight := [];
        calls := [Call_Config; Call_print_exc] |}).
Proof.
  apply (proj1 (switch_model_error_clauses false "bge-small"
                  Faulty.server_blind_local
                  (PyError "FileNotFoundError" "config.yaml") eq_refl)).
  reflexivity.
Defined.

Lemma handlers_with_try_raise_http_only_witness :
  fst (serve false (POST_download_model "ghost") Reference.server0) =
    Raise (HTTPException 500 "ghost") /\
  exists c d,
    HTTPException 500 "ghost" = HTTPException c d /\ c = 500.
Proof.
  split; [reflexivity|].
  apply (handlers_with_try_raise_http_only false (POST_download_model "ghost")
           Reference.server0 (HTTPException 500 "ghost")).
  - discriminate.
  - discriminate.
  - reflexivity.
Defined.
